(** * foopss: the Sphinx configuration [pages/conf.py]

    The repository's only source file is a Python module that Sphinx
    executes once and then reads as a namespace.  This development embeds

    - the text of the file, line by line ([conf_py]);
    - the part of Python's tokenizer and grammar the file is written in
      ([lex], [logical_lines], [parse_module]);
    - the evaluation of a module of assignments into a namespace
      ([eval], [exec_stmt], [exec_module]);

    and proves the properties claimed for the configuration values on the
    namespace obtained by running that pipeline on the text. *)

From Stdlib Require Import Ascii ZArith Lia.
From stdpp Require Import gmap strings list pretty.

Local Open Scope string_scope.
Local Open Scope list_scope.

Set Warnings "-register-all".

(** ** Source text *)

Module Source.

(** The double-quote character, and text between double quotes. *)
Definition dq : ascii := "034"%char.

Definition Q (s : string) : string := String dq (s +:+ String dq EmptyString).

(** The triple quote that opens and closes a multi-line string literal. *)
Definition QQQ : string := String dq (String dq (String dq EmptyString)).

(** [pages/conf.py], one entry per line; [Q "x"] stands for x between
    double quotes.  The file does not end with a
    newline character. *)
Definition conf_py : list string :=
  [ (* 1*) "project = " +:+ Q "Fortran OOP Seminar Series"
  ; (* 2*) "author = " +:+ Q "Sebastian Ehlert"
  ; (* 3*) "copyright = f" +:+ Q "2022 {author}"
  ; (* 4*) EmptyString
  ; (* 5*) "extensions = ["
  ; (* 6*) "    " +:+ Q "myst_parser" +:+ ","
  ; (* 7*) "    " +:+ Q "sphinx_design" +:+ ","
  ; (* 8*) "    " +:+ Q "sphinx_copybutton" +:+ ","
  ; (* 9*) "    " +:+ Q "sphinx.ext.intersphinx" +:+ ","
  ; (*10*) "    " +:+ Q "sphinx_comments" +:+ ","
  ; (*11*) "]"
  ; (*12*) "myst_enable_extensions = ["
  ; (*13*) "    " +:+ Q "colon_fence" +:+ ","
  ; (*14*) "    " +:+ Q "deflist" +:+ ","
  ; (*15*) "    " +:+ Q "substitution" +:+ ","
  ; (*16*) "    " +:+ Q "html_image" +:+ ","
  ; (*17*) "]"
  ; (*18*) EmptyString
  ; (*19*) "html_theme = " +:+ Q "sphinx_book_theme"
  ; (*20*) "html_title = " +:+ Q "Fortran OOP Seminar Series"
  ; (*21*) "html_logo = " +:+ Q "_static/foopss-logo.svg"
  ; (*22*) "html_favicon = " +:+ Q "_static/fortran-logo.svg"
  ; (*23*) EmptyString
  ; (*24*) "_extra_navbar = " +:+ QQQ
  ; (*25*) "<div class=" +:+ Q "sd-fs-4" +:+ ">"
  ; (*26*) "<!--"
  ; (*27*) "<a href=" +:+ Q "https://fortran-lang.discourse.group/"
             +:+ " target=" +:+ Q "_blank" +:+ ">"
  ; (*28*) "    <i class=" +:+ Q "fab fa-discourse" +:+ "></i>"
  ; (*29*) "</a>"
  ; (*30*) "<a href=" +:+ Q "https://twitter.com/fortranlang"
             +:+ " target=" +:+ Q "_blank" +:+ ">"
  ; (*31*) "    <i class=" +:+ Q "fab fa-twitter" +:+ "></i>"
  ; (*32*) "</a>"
  ; (*33*) "<a href=" +:+ Q "https://github.com/fortran-lang"
             +:+ " target=" +:+ Q "_blank" +:+ ">"
  ; (*34*) "    <i class=" +:+ Q "fab fa-github" +:+ "></i>"
  ; (*35*) "</a>"
  ; (*36*) "-->"
  ; (*37*) "</div>"
  ; (*38*) QQQ
  ; (*39*) EmptyString
  ; (*40*) "html_theme_options = {"
  ; (*41*) "    " +:+ Q "repository_url" +:+ ": "
             +:+ Q "https://github.com/awvwgk/foopss" +:+ ","
  ; (*42*) "    " +:+ Q "repository_branch" +:+ ": " +:+ Q "main" +:+ ","
  ; (*43*) "    " +:+ Q "use_repository_button" +:+ ": True,"
  ; (*44*) "    " +:+ Q "use_edit_page_button" +:+ ": True,"
  ; (*45*) "    " +:+ Q "use_download_button" +:+ ": False,"
  ; (*46*) "    " +:+ Q "path_to_docs" +:+ ": " +:+ Q "pages" +:+ ","
  ; (*47*) "    " +:+ Q "show_navbar_depth" +:+ ": 3,"
  ; (*48*) "    " +:+ Q "logo_only" +:+ ": True,"
  ; (*49*) "    " +:+ Q "extra_navbar" +:+ ": _extra_navbar,"
  ; (*50*) "    #" +:+ Q "single_page" +:+ ": True,"
  ; (*51*) "}"
  ; (*52*) EmptyString
  ; (*53*) "html_sidebars = {"
  ; (*54*) "    " +:+ Q "**" +:+ ": [" +:+ Q "sidebar-logo.html" +:+ ", "
             +:+ Q "search-field.html" +:+ "],"
  ; (*55*) "}"
  ; (*56*) EmptyString
  ; (*57*) "html_css_files = ["
  ; (*58*) "    " +:+ Q "css/custom.css" +:+ ","
  ; (*59*) "]"
  ; (*60*) "html_static_path = [" +:+ Q "_static" +:+ "]"
  ; (*61*) "templates_path = [" +:+ Q "_templates" +:+ "]"
  ; (*62*) EmptyString
  ; (*63*) "master_doc = " +:+ Q "index"
  ; (*64*) EmptyString
  ; (*65*) "comments_config = {}"
  ].

(** The newline character and the file as one string: the lines joined by
    newlines, none after the last. *)
Definition nl : ascii := "010"%char.

Fixpoint unlines (ls : list string) : string :=
  match ls with
  | [] => EmptyString
  | [l] => l
  | l :: rest => l +:+ String nl (unlines rest)
  end.

Definition conf_text : string := unlines conf_py.

End Source.

(** ** Results of fallible steps

    Tokenizing, parsing and evaluating can all fail; the failures are the
    exceptions Python would raise, plus [Unsupported] for Python this
    development does not model. *)

Inductive error :=
| SyntaxError (line : nat) (msg : string)
| NameError (name : string)
| Unsupported (msg : string).

Inductive result (A : Type) :=
| Ok (a : A)
| Err (e : error).
Arguments Ok {A} a.
Arguments Err {A} e.

#[global] Instance result_ret : MRet result := fun A a => Ok a.

#[global] Instance result_bind : MBind result := fun A B k m =>
  match m with
  | Ok a => k a
  | Err e => Err e
  end.

(** ** Tokenizer *)

Module Lexer.
Import Source.

Inductive token :=
| TName (s : string)
| TNumber (n : Z)
| TString (formatted : bool) (body : string)
| TOp (c : ascii)
| TIndent
| TNewline.

(** A token with the number of the line it starts on; for [TNewline], the
    line it ends. *)
Definition ltoken : Type := nat * token.

Definition code (c : ascii) : N := N_of_ascii c.

Definition between (lo hi : N) (c : ascii) : bool :=
  (lo <=? code c)%N && (code c <=? hi)%N.

Definition is_digit (c : ascii) : bool := between 48 57 c.

Definition is_letter (c : ascii) : bool :=
  between 65 90 c || between 97 122 c || (code c =? 95)%N.

Definition is_word (c : ascii) : bool := is_letter c || is_digit c.

Definition is_blank (c : ascii) : bool := (code c =? 32)%N || (code c =? 9)%N.

Definition is_quote (c : ascii) : bool := (code c =? 34)%N || (code c =? 39)%N.

Definition is_backslash (c : ascii) : bool := (code c =? 92)%N.

Definition opens (c : ascii) : bool :=
  (code c =? 40)%N || (code c =? 91)%N || (code c =? 123)%N.

Definition closes (c : ascii) : bool :=
  (code c =? 41)%N || (code c =? 93)%N || (code c =? 125)%N.

(** The remaining operator and delimiter characters; each is a token of
    its own (operators of several characters are not joined). *)
Definition is_op (c : ascii) : bool :=
  existsb (fun d => Ascii.eqb c d)
    (String.list_ascii_of_string "=,:.;+-*/%<>@&|^~!").

Inductive mode :=
| Code
| Word (acc : list ascii)
| Comment
| Open1 (f : bool) (q : ascii)
| Open2 (f : bool) (q : ascii)
| Short (f : bool) (q : ascii) (acc : list ascii)
| Long (f : bool) (q : ascii) (acc : list ascii) (closing : nat).

(** The tokenizer's state: the current line, the line the token being read
    started on, the bracket depth, whether the logical line has no token
    yet, whether it started with blanks, the mode, and the tokens read so
    far, last first. *)
Record state := State {
  line : nat;
  start : nat;
  depth : nat;
  fresh : bool;
  indent : bool;
  md : mode;
  out : list ltoken
}.

Definition init : state :=
  {| line := 1; start := 1; depth := 0; fresh := true; indent := false;
     md := Code; out := [] |}.

Definition with_mode (m : mode) (st : state) : state :=
  {| line := line st; start := start st; depth := depth st; fresh := fresh st;
     indent := indent st; md := m; out := out st |}.

(** Add a token that started on line [l]; the first token of an indented
    logical line is preceded by [TIndent]. *)
Definition emit (l : nat) (t : token) (st : state) : state :=
  let pre := if fresh st && indent st && (depth st =? 0)%nat then [(l, TIndent)] else [] in
  {| line := line st; start := start st; depth := depth st; fresh := false;
     indent := false; md := Code; out := (l, t) :: pre ++ out st |}.

(** End of a physical line: outside brackets it ends the logical line, if
    that has a token. *)
Definition newline (st : state) : state :=
  let o := if (depth st =? 0)%nat && negb (fresh st)
           then (line st, TNewline) :: out st else out st in
  {| line := S (line st); start := start st; depth := depth st;
     fresh := if (depth st =? 0)%nat then true else fresh st;
     indent := false; md := Code; out := o |}.

Definition string_of_rev (acc : list ascii) : string :=
  String.string_of_list_ascii (rev acc).

Definition digit_value (c : ascii) : Z := Z.of_N (code c) - 48.

Definition decimal (cs : list ascii) : Z :=
  fold_left (fun n c => 10 * n + digit_value c)%Z cs 0%Z.

(** An identifier, keyword or decimal integer ends. *)
Definition flush_word (acc : list ascii) (st : state) : result state :=
  let cs := rev acc in
  match cs with
  | [] => Ok st
  | c :: rest =>
      if is_digit c then
        if negb (forallb is_digit cs) then
          Err (SyntaxError (line st) "invalid decimal literal")
        else if (code c =? 48)%N && negb (forallb (fun d => (code d =? 48)%N) rest) then
          Err (SyntaxError (line st) "leading zeros in decimal integer literal")
        else Ok (emit (line st) (TNumber (decimal cs)) st)
      else Ok (emit (line st) (TName (String.string_of_list_ascii cs)) st)
  end.

(** A character read between tokens. *)
Definition step_code (st : state) (c : ascii) : result state :=
  if Ascii.eqb c nl then Ok (newline st)
  else if is_blank c then
    Ok {| line := line st; start := start st; depth := depth st;
          fresh := fresh st; indent := indent st || fresh st; md := Code;
          out := out st |}
  else if (code c =? 35)%N then Ok (with_mode Comment st)
  else if is_quote c then
    Ok {| line := line st; start := line st; depth := depth st;
          fresh := fresh st; indent := indent st; md := Open1 false c;
          out := out st |}
  else if is_word c then Ok (with_mode (Word [c]) st)
  else if opens c then
    let st' := emit (line st) (TOp c) st in
    Ok {| line := line st'; start := start st'; depth := S (depth st');
          fresh := fresh st'; indent := indent st'; md := Code; out := out st' |}
  else if closes c then
    match depth st with
    | O => Err (SyntaxError (line st) "unmatched closing bracket")
    | S d =>
        let st' := emit (line st) (TOp c) st in
        Ok {| line := line st'; start := start st'; depth := d;
              fresh := fresh st'; indent := indent st'; md := Code; out := out st' |}
    end
  else if is_op c then Ok (emit (line st) (TOp c) st)
  else Err (SyntaxError (line st) "invalid character").

Definition is_f_prefix (acc : list ascii) : bool :=
  match acc with
  | [c] => (code c =? 102)%N || (code c =? 70)%N
  | _ => false
  end.

(** A character read inside a word, a comment or a string literal.  A
    short string literal ends at its quote character; a long one at the
    first run of three, and [closing] counts the quote characters of a run
    that may turn out to be that one. *)
Definition step (st : state) (c : ascii) : result state :=
  match md st with
  | Code => step_code st c
  | Comment => if Ascii.eqb c nl then Ok (newline st) else Ok st
  | Word acc =>
      if is_word c then Ok (with_mode (Word (c :: acc)) st)
      else if is_quote c then
        if is_f_prefix acc then
          Ok {| line := line st; start := line st; depth := depth st;
                fresh := fresh st; indent := indent st; md := Open1 true c;
                out := out st |}
        else Err (Unsupported "string prefix")
      else st' ← flush_word acc st; step_code (with_mode Code st') c
  | Open1 f q =>
      if Ascii.eqb c q then Ok (with_mode (Open2 f q) st)
      else if Ascii.eqb c nl then Err (SyntaxError (line st) "unterminated string literal")
      else if is_backslash c then Err (Unsupported "escape sequence")
      else Ok (with_mode (Short f q [c]) st)
  | Open2 f q =>
      if Ascii.eqb c q then Ok (with_mode (Long f q [] 0) st)
      else step_code (emit (start st) (TString f EmptyString) st) c
  | Short f q acc =>
      if Ascii.eqb c q then Ok (emit (start st) (TString f (string_of_rev acc)) st)
      else if Ascii.eqb c nl then Err (SyntaxError (line st) "unterminated string literal")
      else if is_backslash c then Err (Unsupported "escape sequence")
      else Ok (with_mode (Short f q (c :: acc)) st)
  | Long f q acc k =>
      if Ascii.eqb c q then
        match k with
        | S (S _) => Ok (emit (start st) (TString f (string_of_rev acc)) st)
        | _ => Ok (with_mode (Long f q acc (S k)) st)
        end
      else if is_backslash c then Err (Unsupported "escape sequence")
      else
        let st' := with_mode (Long f q (c :: repeat q k ++ acc) 0) st in
        if Ascii.eqb c nl then
          Ok {| line := S (line st'); start := start st'; depth := depth st';
                fresh := fresh st'; indent := indent st'; md := md st';
                out := out st' |}
        else Ok st'
  end.

(** End of the file. *)
Definition finish (st : state) : result (list ltoken) :=
  st' ←
    match md st with
    | Code | Comment => Ok st
    | Word acc => flush_word acc st
    | Open2 f q => Ok (emit (start st) (TString f EmptyString) st)
    | Open1 _ _ | Short _ _ _ =>
        Err (SyntaxError (line st) "unterminated string literal")
    | Long _ _ _ _ =>
        Err (SyntaxError (line st) "unterminated triple-quoted string literal")
    end;
  if negb (depth st' =? 0)%nat then Err (SyntaxError (line st') "bracket was never closed")
  else Ok (rev (out (newline st'))).

Fixpoint lex_from (st : state) (s : string) : result (list ltoken) :=
  match s with
  | EmptyString => finish st
  | String c rest => st' ← step st c; lex_from st' rest
  end.

Definition lex (s : string) : result (list ltoken) := lex_from init s.

End Lexer.

(** ** Abstract syntax and parser *)

Module Ast.

(** A piece of a formatted string literal: literal text, or a replacement
    field.  Fields are restricted to a bare name, with no conversion and no
    format specification. *)
Inductive fpart :=
| FLit (s : string)
| FField (name : string).

Inductive expr :=
| EStr (s : string)
| EFStr (parts : list fpart)
| EInt (n : Z)
| EBool (b : bool)
| ENone
| EName (x : string)
| EList (items : list expr)
| EDict (items : list (expr * expr)).

Inductive stmt :=
| Assign (target : string) (value : expr)
| ExprStmt (value : expr).

(** What a logical line is, by the tokens it starts with.  An indented
    line, which belongs to the body of a compound statement, is [KOther]. *)
Inductive kind :=
| KAssign
| KExpr
| KImport
| KFunctionDef
| KClassDef
| KControlFlow
| KOther.

#[global] Instance kind_eq_dec : EqDecision kind.
Proof. solve_decision. Defined.

End Ast.

Module Parser.
Import Lexer Ast.

(** A logical line: its first and last physical line and its tokens
    (without the closing [TNewline]). *)
Record lline := LLine {
  ll_first : nat;
  ll_last : nat;
  ll_tokens : list token
}.

Definition close_line (acc : list ltoken) (last : nat) : lline :=
  let ts := rev acc in
  {| ll_first := match ts with (l, _) :: _ => l | [] => last end;
     ll_last := last;
     ll_tokens := map snd ts |}.

Fixpoint logical_lines_from (acc : list ltoken) (toks : list ltoken) : list lline :=
  match toks with
  | [] =>
      match acc with
      | [] => []
      | (l, _) :: _ => [close_line acc l]
      end
  | (l, TNewline) :: rest => close_line acc l :: logical_lines_from [] rest
  | t :: rest => logical_lines_from (t :: acc) rest
  end.

Definition logical_lines (toks : list ltoken) : list lline :=
  logical_lines_from [] toks.

Definition one_of (x : string) (xs : list string) : bool :=
  existsb (String.eqb x) xs.

Definition control_keywords : list string :=
  ["if"; "elif"; "else"; "for"; "while"; "try"; "except"; "finally"; "with";
   "match"; "case"; "return"; "yield"; "break"; "continue"; "pass"; "raise"].

Definition other_keywords : list string :=
  ["del"; "global"; "nonlocal"; "assert"; "await"; "lambda"; "not"; "and";
   "or"; "in"; "is"; "as"].

Definition classify (toks : list token) : kind :=
  match toks with
  | TIndent :: _ => KOther
  | TName x :: rest =>
      if one_of x ["import"; "from"] then KImport
      else if one_of x ["def"; "async"] then KFunctionDef
      else if one_of x ["class"] then KClassDef
      else if one_of x control_keywords then KControlFlow
      else if one_of x other_keywords then KOther
      else match rest with
           | TOp c :: _ => if (code c =? 61)%N then KAssign else KExpr
           | _ => KExpr
           end
  | TOp c :: _ => if (code c =? 64)%N then KFunctionDef else KExpr
  | _ => KExpr
  end.

(** *** Formatted string literals *)

Definition is_identifier (cs : list ascii) : bool :=
  match cs with
  | [] => false
  | c :: _ => is_letter c && forallb is_word cs
  end.

Definition lit_part (acc : list ascii) : list fpart :=
  match acc with
  | [] => []
  | _ => [FLit (string_of_rev acc)]
  end.

(** [fparts field acc s]: the parts of the rest [s] of a formatted string,
    where [acc] holds the characters (last first) of the literal text or,
    when [field] is set, of the replacement field being read. *)
Fixpoint fparts (field : bool) (acc : list ascii) (s : string) : result (list fpart) :=
  match s with
  | EmptyString =>
      if field then Err (SyntaxError 0 "f-string: expecting a closing brace")
      else Ok (lit_part acc)
  | String c rest =>
      if field then
        if (code c =? 125)%N then
          if is_identifier (rev acc) then
            ps ← fparts false [] rest; Ok (FField (string_of_rev acc) :: ps)
          else Err (Unsupported "f-string replacement field")
        else if is_word c then fparts true (c :: acc) rest
        else Err (Unsupported "f-string replacement field")
      else if (code c =? 123)%N then
        ps ← fparts true [] rest; Ok ((lit_part acc ++ ps)%list)
      else if (code c =? 125)%N then
        Err (Unsupported "f-string: closing brace outside a field")
      else fparts false (c :: acc) rest
  end.

(** *** Expressions *)

(** A name in an expression: the constants [True], [False] and [None] are
    keywords, everything else is a variable. *)
Definition name_expr (x : string) : expr :=
  if String.eqb x "True" then EBool true
  else if String.eqb x "False" then EBool false
  else if String.eqb x "None" then ENone
  else EName x.

Definition atom (t : token) : option (result expr) :=
  match t with
  | TName x => Some (Ok (name_expr x))
  | TNumber n => Some (Ok (EInt n))
  | TString false s => Some (Ok (EStr s))
  | TString true s => Some (ps ← fparts false [] s; Ok (EFStr ps))
  | _ => None
  end.

(** An open display: the items read so far, last first, and for a
    dictionary the key that waits for its value. *)
Inductive frame :=
| InList (items : list expr)
| InDict (items : list (expr * expr)) (key : option expr).

Definition bad (msg : string) : result expr := Err (SyntaxError 0 msg).

(** [parse_expr_from stack cur toks]: [stack] holds the displays that are
    open, innermost first; [cur] is the expression just completed, which
    waits for a comma, a colon or a closing bracket. *)
Fixpoint parse_expr_from (stack : list frame) (cur : option expr)
    (toks : list token) : result expr :=
  match toks with
  | [] =>
      match stack, cur with
      | [], Some e => Ok e
      | _, _ => bad "incomplete expression"
      end
  | t :: rest =>
      match atom t with
      | Some r =>
          match cur with
          | None => e ← r; parse_expr_from stack (Some e) rest
          | Some _ => bad "two expressions in a row"
          end
      | None =>
          match t with
          | TOp c =>
              if (code c =? 91)%N then
                match cur with
                | None => parse_expr_from (InList [] :: stack) None rest
                | Some _ => Err (Unsupported "subscription")
                end
              else if (code c =? 123)%N then
                match cur with
                | None => parse_expr_from (InDict [] None :: stack) None rest
                | Some _ => bad "unexpected opening brace"
                end
              else if (code c =? 44)%N then
                match cur, stack with
                | Some v, InList items :: stack' =>
                    parse_expr_from (InList (v :: items) :: stack') None rest
                | Some v, InDict items (Some k) :: stack' =>
                    parse_expr_from (InDict ((k, v) :: items) None :: stack') None rest
                | Some _, InDict _ None :: _ => Err (Unsupported "set display")
                | Some _, [] => Err (Unsupported "tuple")
                | None, _ => bad "unexpected comma"
                end
              else if (code c =? 58)%N then
                match cur, stack with
                | Some k, InDict items None :: stack' =>
                    parse_expr_from (InDict items (Some k) :: stack') None rest
                | _, _ => bad "unexpected colon"
                end
              else if (code c =? 93)%N then
                match stack with
                | InList items :: stack' =>
                    let items' := match cur with Some v => v :: items | None => items end in
                    parse_expr_from stack' (Some (EList (rev items'))) rest
                | _ => bad "unexpected closing bracket"
                end
              else if (code c =? 125)%N then
                match stack, cur with
                | InDict items None :: stack', None =>
                    parse_expr_from stack' (Some (EDict (rev items))) rest
                | InDict items (Some k) :: stack', Some v =>
                    parse_expr_from stack' (Some (EDict (rev ((k, v) :: items)))) rest
                | InDict _ None :: _, Some _ => Err (Unsupported "set display")
                | _, _ => bad "unexpected closing brace"
                end
              else Err (Unsupported "operator")
          | _ => bad "unexpected token"
          end
      end
  end.

Definition parse_expr (toks : list token) : result expr :=
  parse_expr_from [] None toks.

(** *** Statements and modules *)

(** Assignments to one name and expression statements are parsed; the
    other kinds of statement are not modelled. *)
Definition parse_stmt (l : lline) : result stmt :=
  match classify (ll_tokens l), ll_tokens l with
  | KAssign, TName x :: _ :: rest =>
      match name_expr x with
      | EName _ => e ← parse_expr rest; Ok (Assign x e)
      | _ => Err (SyntaxError (ll_first l) "cannot assign to a constant")
      end
  | KExpr, toks => e ← parse_expr toks; Ok (ExprStmt e)
  | _, _ => Err (Unsupported "statement")
  end.

Fixpoint parse_lines (ls : list lline) : result (list stmt) :=
  match ls with
  | [] => Ok []
  | l :: rest => s ← parse_stmt l; ss ← parse_lines rest; Ok (s :: ss)
  end.

Definition parse_module (text : string) : result (list stmt) :=
  toks ← lex text; parse_lines (logical_lines toks).

(** The kinds of the statements of a text, in order. *)
Definition kinds (text : string) : result (list kind) :=
  toks ← lex text;
  Ok (map (fun l => classify (ll_tokens l)) (logical_lines toks)).

End Parser.

(** ** Evaluation *)

Module Eval.
Import Ast.

(** Python objects, as far as the configuration builds them.  Dictionary
    keys are strings; a dictionary keeps its items in insertion order. *)
Inductive value :=
| VStr (s : string)
| VInt (n : Z)
| VBool (b : bool)
| VNone
| VList (items : list value)
| VDict (items : list (string * value)).

(** A module's namespace: its global names and the objects bound to them. *)
Abbreviation namespace := (gmap string value).

(** [d[k] = v]: a key already present keeps its place and gets the new
    value, a new key goes to the end. *)
Fixpoint dict_set (k : string) (v : value) (d : list (string * value))
    : list (string * value) :=
  match d with
  | [] => [(k, v)]
  | (k', v') :: rest =>
      if String.eqb k k' then (k, v) :: rest else (k', v') :: dict_set k v rest
  end.

Fixpoint dict_get (k : string) (d : list (string * value)) : option value :=
  match d with
  | [] => None
  | (k', v) :: rest => if String.eqb k k' then Some v else dict_get k rest
  end.

(** [str(v)], which is what a replacement field without conversion or
    format specification puts into a formatted string. *)
Definition str (v : value) : result string :=
  match v with
  | VStr s => Ok s
  | VInt n => Ok (pretty n)
  | VBool true => Ok "True"
  | VBool false => Ok "False"
  | VNone => Ok "None"
  | VList _ | VDict _ => Err (Unsupported "str of a container")
  end.

Definition eval_name (ns : namespace) (x : string) : result value :=
  match ns !! x with
  | Some v => Ok v
  | None => Err (NameError x)
  end.

Definition eval_field (ns : namespace) (x : string) : result value :=
  match Parser.name_expr x with
  | EBool b => Ok (VBool b)
  | ENone => Ok VNone
  | _ => eval_name ns x
  end.

Fixpoint format_parts (ns : namespace) (parts : list fpart) : result string :=
  match parts with
  | [] => Ok EmptyString
  | FLit s :: rest => t ← format_parts ns rest; Ok (s +:+ t)
  | FField x :: rest =>
      v ← eval_field ns x; s ← str v; t ← format_parts ns rest; Ok (s +:+ t)
  end.

(** Evaluating the items of a list display, left to right. *)
Definition eval_items (f : expr -> result value) : list expr -> result (list value) :=
  fix go (es : list expr) : result (list value) :=
    match es with
    | [] => Ok []
    | e :: es' => v ← f e; vs ← go es'; Ok (v :: vs)
    end.

(** Evaluating the items of a dictionary display, left to right, each key
    before its value, and storing each into the dictionary [d]. *)
Definition eval_pairs (f : expr -> result value)
    : list (expr * expr) -> list (string * value) -> result (list (string * value)) :=
  fix go (kvs : list (expr * expr)) (d : list (string * value)) :=
    match kvs with
    | [] => Ok d
    | (ke, ve) :: kvs' =>
        k ← f ke;
        v ← f ve;
        match k with
        | VStr s => go kvs' (dict_set s v d)
        | _ => Err (Unsupported "dictionary key")
        end
    end.

Fixpoint eval (ns : namespace) (e : expr) : result value :=
  match e with
  | EStr s => Ok (VStr s)
  | EFStr parts => s ← format_parts ns parts; Ok (VStr s)
  | EInt n => Ok (VInt n)
  | EBool b => Ok (VBool b)
  | ENone => Ok VNone
  | EName x => eval_name ns x
  | EList items => vs ← eval_items (eval ns) items; Ok (VList vs)
  | EDict items => d ← eval_pairs (eval ns) items []; Ok (VDict d)
  end.

Definition exec_stmt (ns : namespace) (s : stmt) : result namespace :=
  match s with
  | Assign x e => v ← eval ns e; Ok (<[x := v]> ns)
  | ExprStmt e => _ ← eval ns e; Ok ns
  end.

Fixpoint exec_module (m : list stmt) (ns : namespace) : result namespace :=
  match m with
  | [] => Ok ns
  | s :: rest => ns' ← exec_stmt ns s; exec_module rest ns'
  end.

(** Running a source text in a namespace, and reading a name of the
    namespace that results, as Sphinx does with [conf.py]. *)
Definition run (ns0 : namespace) (text : string) : result namespace :=
  m ← Parser.parse_module text; exec_module m ns0.

Definition getattr (ns : namespace) (name : string) : result value :=
  eval_name ns name.

End Eval.

(** ** Names a module binds and reads *)

Module Names.
Import Ast Eval.

Definition target (s : stmt) : option string :=
  match s with
  | Assign x _ => Some x
  | ExprStmt _ => None
  end.

(** The names a module assigns, one entry per assignment, in order. *)
Definition targets (m : list stmt) : list string := omap target m.

Definition value_of (s : stmt) : expr :=
  match s with
  | Assign _ e => e
  | ExprStmt e => e
  end.

Definition part_reads (p : fpart) : list string :=
  match p with
  | FLit _ => []
  | FField x =>
      match Parser.name_expr x with
      | EName y => [y]
      | _ => []
      end
  end.

(** The names whose binding the evaluation of an expression looks up. *)
Fixpoint reads (e : expr) : list string :=
  match e with
  | EName x => [x]
  | EFStr parts => flat_map part_reads parts
  | EList items => flat_map reads items
  | EDict items => flat_map (fun '(k, v) => (reads k ++ reads v)%list) items
  | EStr _ | EInt _ | EBool _ | ENone => []
  end.

(** A module is closed from the names [bound] when every name a statement
    reads is in [bound] or assigned by an earlier statement. *)
Fixpoint closed_from (bound : list string) (m : list stmt) : bool :=
  match m with
  | [] => true
  | s :: rest =>
      forallb (fun x => Parser.one_of x bound) (reads (value_of s))
      && closed_from (match target s with Some x => x :: bound | None => bound end) rest
  end.

(** Two namespaces agree on the names [xs]. *)
Definition agree (xs : list string) (ns1 ns2 : namespace) : Prop :=
  forall x, x ∈ xs -> ns1 !! x = ns2 !! x.

(** Two runs end alike: with the same error, or with namespaces that agree
    on the names [xs]. *)
Definition same_outcome (xs : list string) (r1 r2 : result namespace) : Prop :=
  match r1, r2 with
  | Ok ns1, Ok ns2 => agree xs ns1 ns2
  | Err e1, Err e2 => e1 = e2
  | _, _ => False
  end.

End Names.

(** ** Reading HTML text *)

Module Html.

Fixpoint starts_with (pat s : string) : bool :=
  match pat, s with
  | EmptyString, _ => true
  | String p pat', String c s' => Ascii.eqb p c && starts_with pat' s'
  | String _ _, EmptyString => false
  end.

(** The positions (from 0) at which [pat] occurs in [s]. *)
Fixpoint positions_from (i : nat) (pat s : string) : list nat :=
  match s with
  | EmptyString => []
  | String _ s' =>
      let rest := positions_from (S i) pat s' in
      if starts_with pat s then i :: rest else rest
  end.

Definition positions (pat s : string) : list nat := positions_from 0 pat s.

Definition comment_open : string := "<!--".
Definition comment_close : string := "-->".

(** The text that is left when the comments are taken out: a comment runs
    from [<!--] to the first [-->] after it.  [skip] counts the characters
    of a delimiter still to pass over. *)
Fixpoint strip_from (inside : bool) (skip : nat) (s : string) : string :=
  match s with
  | EmptyString => EmptyString
  | String c s' =>
      match skip with
      | S k => strip_from inside k s'
      | O =>
          if inside then
            if starts_with comment_close s then strip_from false 2 s'
            else strip_from true 0 s'
          else if starts_with comment_open s then strip_from true 3 s'
          else String c (strip_from false 0 s')
      end
  end.

Definition strip_comments (s : string) : string := strip_from false 0 s.

(** Markup of a link: an anchor's opening or closing tag, or a link target. *)
Definition link_markup : list string := ["<a "; "<a>"; "</a"; "href="].

(** Where link markup stands in [s]: the position of each occurrence and
    the position just after it. *)
Definition link_spans (s : string) : list (nat * nat) :=
  flat_map (fun pat => map (fun p => (p, p + String.length pat)) (positions pat s))
           link_markup.

Definition is_space (c : ascii) : bool :=
  Lexer.is_blank c || Ascii.eqb c Source.nl.

Fixpoint all_space (s : string) : bool :=
  match s with
  | EmptyString => true
  | String c s' => is_space c && all_space s'
  end.

End Html.

(** ** The configuration *)

Module Conf.
Import Source Ast Eval.

(** Splitting a text into its lines, as [str.splitlines] does for text
    whose only line break is the newline character. *)
Fixpoint splitlines_from (acc : list ascii) (s : string) : list string :=
  match s with
  | EmptyString =>
      match acc with
      | [] => []
      | _ => [Lexer.string_of_rev acc]
      end
  | String c s' =>
      if Ascii.eqb c nl then Lexer.string_of_rev acc :: splitlines_from [] s'
      else splitlines_from (c :: acc) s'
  end.

Definition splitlines (s : string) : list string := splitlines_from [] s.

(** The statements of [conf.py]: what the parser reads from its text. *)
Definition conf_module : list stmt :=
  Eval vm_compute in
    match Parser.parse_module conf_text with
    | Ok m => m
    | Err _ => []
    end.

(** The logical lines of [conf.py]. *)
Definition conf_lines : list Parser.lline :=
  Eval vm_compute in
    match Lexer.lex conf_text with
    | Ok toks => Parser.logical_lines toks
    | Err _ => []
    end.

(** The value of the configuration name [name] after [conf.py] has run in
    the namespace [ns0] that the caller prepared. *)
Definition config (ns0 : namespace) (name : string) : result value :=
  ns ← run ns0 conf_text; getattr ns name.

(** The configuration values by the names [conf.py] gives them. *)
Definition project (ns0 : namespace) : result value := config ns0 "project".
Definition author (ns0 : namespace) : result value := config ns0 "author".
Definition copyright (ns0 : namespace) : result value := config ns0 "copyright".
Definition extensions (ns0 : namespace) : result value := config ns0 "extensions".
Definition myst_enable_extensions (ns0 : namespace) : result value :=
  config ns0 "myst_enable_extensions".
Definition html_title (ns0 : namespace) : result value := config ns0 "html_title".
Definition _extra_navbar (ns0 : namespace) : result value :=
  config ns0 "_extra_navbar".
Definition html_theme_options (ns0 : namespace) : result value :=
  config ns0 "html_theme_options".
Definition html_sidebars (ns0 : namespace) : result value :=
  config ns0 "html_sidebars".
Definition comments_config (ns0 : namespace) : result value :=
  config ns0 "comments_config".

(** The namespace after the first [k] statements of [conf.py]. *)
Definition after (k : nat) (ns0 : namespace) : result namespace :=
  exec_module (take k conf_module) ns0.

(** The value of [name] at that point of the run. *)
Definition value_after (k : nat) (ns0 : namespace) (name : string) : result value :=
  ns ← after k ns0; getattr ns name.

Definition is_scalar (v : value) : bool :=
  match v with VStr _ | VBool _ | VInt _ => true | _ => false end.

Definition is_str_dict_or_list (v : value) : bool :=
  match v with VStr _ | VDict _ | VList _ => true | _ => false end.

(** Line [n] (from 1) of the file has only blanks. *)
Definition blank_line (n : nat) : bool :=
  match n with
  | O => false
  | S i => from_option Html.all_space false (conf_py !! i)
  end.

(** Line [n] lies within a logical line of kind [k]. *)
Definition within (k : kind) (n : nat) : bool :=
  existsb (fun l => (Parser.ll_first l <=? n)%nat && (n <=? Parser.ll_last l)%nat
                    && bool_decide (Parser.classify (Parser.ll_tokens l) = k))
          conf_lines.

End Conf.

(** ** Reading the settings: paths, module names, parts of the text *)

Module Settings.
Import Source Ast Eval Conf.

(** Where the file is in the repository. *)
Definition conf_path : string := "pages/conf.py".

(** Lines [first] to [last] of the file (from 1, both included), as a text
    of their own. *)
Definition lines (first last : nat) : string :=
  unlines (take (S last - first) (drop (first - 1) conf_py)).

(** The statements of the file in another order: the first [k] backwards,
    then the rest. *)
Definition first_reversed (k : nat) : list stmt :=
  reverse (take k conf_module) ++ drop k conf_module.

(** The strings of a setting that is one string or a list of strings. *)
Definition strings_of (v : value) : option (list string) :=
  match v with
  | VStr s => Some [s]
  | VList items =>
      mapM (fun i => match i with VStr s => Some s | _ => None end) items
  | _ => None
  end.

(** The settings the file gives besides those of [Conf], by their names. *)
Definition html_theme (ns0 : namespace) : result value := config ns0 "html_theme".
Definition html_logo (ns0 : namespace) : result value := config ns0 "html_logo".
Definition html_favicon (ns0 : namespace) : result value :=
  config ns0 "html_favicon".
Definition html_css_files (ns0 : namespace) : result value :=
  config ns0 "html_css_files".
Definition html_static_path (ns0 : namespace) : result value :=
  config ns0 "html_static_path".
Definition templates_path (ns0 : namespace) : result value :=
  config ns0 "templates_path".
Definition master_doc (ns0 : namespace) : result value := config ns0 "master_doc".

Definition is_list (v : value) : bool :=
  match v with VList _ => true | _ => false end.

(** A value that, when it is a list, is a list of strings with at least one
    item and no item twice. *)
Definition list_of_distinct_strings (v : value) : bool :=
  match v with
  | VList _ =>
      match strings_of v with
      | Some [] | None => false
      | Some ps => bool_decide (NoDup ps)
      end
  | _ => true
  end.

Definition contains (pat s : string) : bool :=
  match Html.positions pat s with
  | [] => false
  | _ :: _ => true
  end.

Definition has_suffix (suf s : string) : bool :=
  existsb (fun i => (i + String.length suf =? String.length s)%nat)
          (Html.positions suf s).

(** [p] names something inside the directory [dir]. *)
Definition under (dir p : string) : bool := Html.starts_with (dir +:+ "/") p.

(** A path that is not absolute, is no URL and does not step out of the
    directory it is taken from. *)
Definition is_relative (p : string) : bool :=
  negb (Html.starts_with "/" p) && negb (contains "://" p) && negb (contains ".." p).

(** The pieces of [s] between the occurrences of [sep]. *)
Fixpoint split_from (sep : ascii) (acc : list ascii) (s : string) : list string :=
  match s with
  | EmptyString => [Lexer.string_of_rev acc]
  | String c s' =>
      if Ascii.eqb c sep then Lexer.string_of_rev acc :: split_from sep [] s'
      else split_from sep (c :: acc) s'
  end.

Definition split (sep : ascii) (s : string) : list string := split_from sep [] s.

(** A dotted name that [import] accepts: identifiers with dots between. *)
Definition is_module_name (s : string) : bool :=
  forallb (fun part => Parser.is_identifier (String.list_ascii_of_string part))
          (split "." s).

End Settings.

(** A decidable fact about known data, settled by evaluating its decision
    procedure. *)
Ltac by_computation := apply (bool_decide_unpack _); vm_compute; exact I.

(** * Properties *)

(** ** Strings and results *)

Lemma append_empty (s : string) : s +:+ EmptyString = s.
Proof.
  induction s as [|c s IH]; [reflexivity|].
  change (String c (s +:+ EmptyString) = String c s). rewrite IH. reflexivity.
Qed.

Section Result.
Context {A B : Type}.

Lemma bind_ok (m : result A) (k : A -> result B) (b : B) :
  m ≫= k = Ok b -> exists a, m = Ok a /\ k a = Ok b.
Proof.
  destruct m as [a|e]; simpl; intros H.
  - exists a. split; [reflexivity | exact H].
  - discriminate H.
Qed.
End Result.

(** ** Evaluation reads only the names an expression mentions *)

Section Agreement.
Import Ast Eval Names.

(** Induction over expressions that reaches the items of displays. *)
Lemma expr_nested_ind (P : expr -> Prop)
    (HStr : forall s, P (EStr s))
    (HFStr : forall parts, P (EFStr parts))
    (HInt : forall n, P (EInt n))
    (HBool : forall b, P (EBool b))
    (HNone : P ENone)
    (HName : forall x, P (EName x))
    (HList : forall items, Forall P items -> P (EList items))
    (HDict : forall items, Forall (fun kv => P kv.1 /\ P kv.2) items -> P (EDict items)) :
  forall e, P e.
Proof.
  fix IH 1. intros [s|parts|n|b| |x|items|items].
  - apply HStr.
  - apply HFStr.
  - apply HInt.
  - apply HBool.
  - apply HNone.
  - apply HName.
  - apply HList. revert items. fix IHl 1. intros [|e items].
    + constructor.
    + constructor; [apply IH | apply IHl].
  - apply HDict. revert items. fix IHl 1. intros [|[k v] items].
    + constructor.
    + constructor; [split; apply IH | apply IHl].
Qed.

Lemma agree_app_l xs ys ns1 ns2 :
  agree (xs ++ ys) ns1 ns2 -> agree xs ns1 ns2.
Proof. intros H x Hx. apply H, elem_of_app. left. exact Hx. Qed.

Lemma agree_app_r xs ys ns1 ns2 :
  agree (xs ++ ys) ns1 ns2 -> agree ys ns1 ns2.
Proof. intros H x Hx. apply H, elem_of_app. right. exact Hx. Qed.

Lemma agree_subset xs ys ns1 ns2 :
  (forall x, x ∈ xs -> x ∈ ys) -> agree ys ns1 ns2 -> agree xs ns1 ns2.
Proof. intros Hsub H x Hx. apply H, Hsub, Hx. Qed.

Lemma agree_insert xs x v ns1 ns2 :
  agree xs ns1 ns2 -> agree (x :: xs) (<[x := v]> ns1) (<[x := v]> ns2).
Proof.
  intros H y Hy. destruct (decide (x = y)) as [->|Hne].
  - rewrite !lookup_insert_eq. reflexivity.
  - rewrite !lookup_insert_ne by exact Hne.
    apply H. apply elem_of_cons in Hy as [Hy|Hy]; [congruence | exact Hy].
Qed.

Lemma eval_name_agree x ns1 ns2 :
  agree [x] ns1 ns2 -> eval_name ns1 x = eval_name ns2 x.
Proof.
  intros H. unfold eval_name. rewrite (H x); [reflexivity | apply list_elem_of_singleton; reflexivity].
Qed.

Lemma name_expr_cases x :
  (exists b, Parser.name_expr x = EBool b)
  \/ Parser.name_expr x = ENone
  \/ Parser.name_expr x = EName x.
Proof.
  unfold Parser.name_expr.
  destruct (String.eqb x "True"); [left; eexists; reflexivity|].
  destruct (String.eqb x "False"); [left; eexists; reflexivity|].
  destruct (String.eqb x "None"); [right; left; reflexivity|].
  right; right; reflexivity.
Qed.

Lemma eval_field_agree x ns1 ns2 :
  agree (part_reads (FField x)) ns1 ns2 -> eval_field ns1 x = eval_field ns2 x.
Proof.
  unfold eval_field. simpl.
  destruct (name_expr_cases x) as [[b ->]|[->| ->]]; intros H; try reflexivity.
  apply eval_name_agree, H.
Qed.

Lemma format_parts_agree parts ns1 ns2 :
  agree (flat_map part_reads parts) ns1 ns2 ->
  format_parts ns1 parts = format_parts ns2 parts.
Proof.
  induction parts as [|[s|x] parts IH]; simpl; intros H.
  - reflexivity.
  - rewrite IH; [reflexivity | exact H].
  - rewrite (eval_field_agree x ns1 ns2) by (eapply agree_app_l, H).
    rewrite IH; [reflexivity | eapply agree_app_r, H].
Qed.

Lemma eval_items_ext (f g : expr -> result value) items :
  Forall (fun e => f e = g e) items -> eval_items f items = eval_items g items.
Proof.
  induction 1 as [|e items He _ IH]; simpl.
  - reflexivity.
  - rewrite He, IH. reflexivity.
Qed.

Lemma eval_pairs_ext (f g : expr -> result value) items :
  Forall (fun kv => f kv.1 = g kv.1 /\ f kv.2 = g kv.2) items ->
  forall d, eval_pairs f items d = eval_pairs g items d.
Proof.
  induction 1 as [|[k v] items [Hk Hv] _ IH]; simpl in *; intros d.
  - reflexivity.
  - rewrite Hk, Hv. destruct (g k) as [kv|]; simpl; [|reflexivity].
    destruct (g v) as [vv|]; simpl; [|reflexivity].
    destruct kv; try reflexivity. apply IH.
Qed.

(** Namespaces that agree on the names an expression reads give it the
    same value, or the same error. *)
Lemma eval_agree e :
  forall ns1 ns2, agree (reads e) ns1 ns2 -> eval ns1 e = eval ns2 e.
Proof.
  induction e as [s|parts|n|b| |x|items IH|items IH] using expr_nested_ind;
    intros ns1 ns2 H; simpl; try reflexivity.
  - rewrite (format_parts_agree parts ns1 ns2 H). reflexivity.
  - apply eval_name_agree, H.
  - rewrite (eval_items_ext (eval ns1) (eval ns2) items); [reflexivity|].
    simpl in H. induction IH as [|e items He _ IHitems]; constructor.
    + apply He. eapply agree_app_l, H.
    + apply IHitems. eapply agree_app_r, H.
  - rewrite (eval_pairs_ext (eval ns1) (eval ns2) items); [reflexivity|].
    simpl in H. induction IH as [|[k v] items [Hk Hv] _ IHitems]; constructor.
    + simpl in *. split.
      * apply Hk. eapply agree_app_l, agree_app_l, H.
      * apply Hv. eapply agree_app_r, agree_app_l, H.
    + apply IHitems. eapply agree_app_r, H.
Qed.
End Agreement.

(** ** Running a module *)

Section Execution.
Import Ast Eval Names.

Lemma exec_module_app m1 m2 ns :
  exec_module (m1 ++ m2) ns = exec_module m1 ns ≫= exec_module m2.
Proof.
  revert ns. induction m1 as [|s m1 IH]; intros ns; simpl.
  - reflexivity.
  - destruct (exec_stmt ns s) as [ns'|e]; simpl; [apply IH | reflexivity].
Qed.

(** A run that succeeds has succeeded at every point on the way. *)
Lemma exec_module_prefix_ok m1 m2 ns ns' :
  exec_module (m1 ++ m2) ns = Ok ns' ->
  exists ns1, exec_module m1 ns = Ok ns1 /\ exec_module m2 ns1 = Ok ns'.
Proof. rewrite exec_module_app. apply bind_ok. Qed.

(** A statement changes at most the binding of its target. *)
Lemma exec_stmt_lookup_other ns s ns' x :
  exec_stmt ns s = Ok ns' -> target s <> Some x -> ns' !! x = ns !! x.
Proof.
  destruct s as [y e|e]; simpl; intros H Hx.
  - apply bind_ok in H as (v & _ & H). injection H as <-.
    apply lookup_insert_ne. congruence.
  - apply bind_ok in H as (v & _ & H). injection H as <-. reflexivity.
Qed.

(** A module leaves the names it does not assign as they were. *)
Lemma exec_module_lookup_other m :
  forall ns ns' x,
    exec_module m ns = Ok ns' -> x ∉ targets m -> ns' !! x = ns !! x.
Proof.
  induction m as [|s m IH]; simpl; intros ns ns' x H Hx.
  - injection H as <-. reflexivity.
  - apply bind_ok in H as (ns1 & Hs & Hm).
    rewrite (IH ns1 ns' x Hm).
    + apply (exec_stmt_lookup_other ns s ns1 x Hs).
      intros Ht. apply Hx. unfold targets. simpl. rewrite Ht.
      apply elem_of_cons. left. reflexivity.
    + intros Hin. apply Hx. unfold targets. simpl.
      destruct (target s); [apply elem_of_cons; right|]; exact Hin.
Qed.

Lemma one_of_elem x xs : Parser.one_of x xs = true -> x ∈ xs.
Proof.
  unfold Parser.one_of. intros H. apply existsb_exists in H as (y & Hy & Heq).
  apply String.eqb_eq in Heq as ->. apply list_elem_of_In, Hy.
Qed.

Lemma reads_bound bound e ns1 ns2 :
  forallb (fun x => Parser.one_of x bound) (reads e) = true ->
  agree bound ns1 ns2 -> agree (reads e) ns1 ns2.
Proof.
  intros Hall H. apply (agree_subset _ bound); [|exact H].
  intros x Hx. apply one_of_elem.
  rewrite forallb_forall in Hall. apply Hall, list_elem_of_In, Hx.
Qed.

Lemma same_outcome_subset xs ys r1 r2 :
  (forall x, x ∈ xs -> x ∈ ys) -> same_outcome ys r1 r2 -> same_outcome xs r1 r2.
Proof.
  destruct r1, r2; simpl; try tauto. apply agree_subset.
Qed.

(** A module that is closed from [bound], run in two namespaces that agree
    on [bound], ends alike in both: the names it assigns and the names of
    [bound] have the same values. *)
Lemma exec_module_agree m :
  forall bound ns1 ns2,
    closed_from bound m = true -> agree bound ns1 ns2 ->
    same_outcome (targets m ++ bound) (exec_module m ns1) (exec_module m ns2).
Proof.
  induction m as [|s m IH]; intros bound ns1 ns2 Hc H.
  - exact H.
  - simpl in Hc. apply andb_prop in Hc as [Hr Hc].
    pose proof (eval_agree _ _ _ (reads_bound _ _ _ _ Hr H)) as He.
    destruct s as [x e|e]; simpl in *.
    + rewrite He. destruct (eval ns2 e) as [v|err]; simpl; [|reflexivity].
      eapply same_outcome_subset;
        [|apply (IH (x :: bound) _ _ Hc (agree_insert _ x v _ _ H))].
      intros y. unfold targets. simpl.
      rewrite elem_of_cons, !elem_of_app, elem_of_cons. tauto.
    + rewrite He. destruct (eval ns2 e) as [v|err]; simpl; [|reflexivity].
      apply (IH bound _ _ Hc H).
Qed.

Lemma take_split {A : Type} (l : list A) (n k : nat) :
  n <= k -> take k l = take n l ++ take (k - n) (drop n l).
Proof.
  revert l k. induction n as [|n IH]; intros l k Hle.
  - rewrite Nat.sub_0_r. reflexivity.
  - destruct k as [|k]; [lia|]. destruct l as [|a l]; simpl.
    + rewrite take_nil. reflexivity.
    + rewrite (IH l k) by lia. reflexivity.
Qed.
End Execution.

(** ** Facts about [conf.py] *)

Section ConfFacts.
Import Source Ast Eval Names Conf.

Lemma parse_conf : Parser.parse_module conf_text = Ok conf_module.
Proof. vm_compute. reflexivity. Qed.

Lemma lex_conf :
  exists toks, Lexer.lex conf_text = Ok toks /\ Parser.logical_lines toks = conf_lines.
Proof. eexists. split; vm_compute; reflexivity. Qed.

Lemma conf_closed : closed_from [] conf_module = true.
Proof. vm_compute. reflexivity. Qed.

(** Whatever the namespace [conf.py] is run in, the run succeeds and the
    names the file assigns get the values they get in an empty one. *)
Lemma run_conf_agree (ns0 : namespace) :
  same_outcome (targets conf_module) (run ns0 conf_text) (run ∅ conf_text).
Proof.
  unfold run. rewrite parse_conf. simpl.
  eapply same_outcome_subset;
    [|apply (exec_module_agree conf_module [] ns0 ∅ conf_closed)].
  - intros x Hx. apply elem_of_app. left. exact Hx.
  - intros x Hx. apply elem_of_nil in Hx. destruct Hx.
Qed.

Lemma run_conf_ok (ns0 : namespace) : exists ns, run ns0 conf_text = Ok ns.
Proof.
  pose proof (run_conf_agree ns0) as H.
  destruct (run ns0 conf_text) as [ns|e]; [exists ns; reflexivity|].
  exfalso. revert H. vm_compute. intros H. exact H.
Qed.

Lemma config_independent (ns0 : namespace) (x : string) :
  x ∈ targets conf_module -> config ns0 x = config ∅ x.
Proof.
  intros Hx. unfold config. pose proof (run_conf_agree ns0) as H.
  destruct (run ns0 conf_text) as [ns|e], (run ∅ conf_text) as [ns'|e'];
    simpl in *; try contradiction.
  - unfold getattr, eval_name. rewrite (H x Hx). reflexivity.
  - congruence.
Qed.
End ConfFacts.

Section ConfRun.
Import Source Ast Eval Names Conf.

Lemma closed_from_take m :
  forall bound n, closed_from bound m = true -> closed_from bound (take n m) = true.
Proof.
  induction m as [|s m IH]; intros bound n H.
  - rewrite take_nil. reflexivity.
  - destruct n as [|n]; [reflexivity|]. simpl in *.
    apply andb_prop in H as [Hr Hc]. rewrite Hr. simpl. apply IH, Hc.
Qed.

Lemma targets_take m :
  forall n x, x ∈ targets (take n m) -> x ∈ targets m.
Proof.
  induction m as [|s m IH]; intros n x H.
  - rewrite take_nil in H. exact H.
  - destruct n as [|n]; [apply elem_of_nil in H; destruct H|].
    unfold targets in *. simpl in *. destruct (target s) as [y|].
    + apply elem_of_cons in H as [->|H]; apply elem_of_cons;
        [left; reflexivity | right; apply (IH n), H].
    + apply (IH n), H.
Qed.

(** Every point of the run of [conf.py] is reached, in any namespace. *)
Lemma after_ok (k : nat) (ns0 : namespace) :
  exists ns, after k ns0 = Ok ns /\ exec_module (drop k conf_module) ns = run ns0 conf_text.
Proof.
  destruct (run_conf_ok ns0) as [ns Hrun].
  rewrite Hrun. unfold run in Hrun. rewrite parse_conf in Hrun.
  change (exec_module conf_module ns0 = Ok ns) in Hrun.
  rewrite <- (take_drop k conf_module) in Hrun.
  apply exec_module_prefix_ok in Hrun. exact Hrun.
Qed.

(** A name keeps its value from one point of the run to a later one when no
    statement from the first point on assigns it. *)
Lemma value_after_stable (ns0 : namespace) (x : string) (n k : nat) :
  n <= k -> x ∉ targets (drop n conf_module) ->
  value_after k ns0 x = value_after n ns0 x.
Proof.
  intros Hle Hx. unfold value_after.
  destruct (after_ok k ns0) as (nsk & Hk & _). rewrite Hk.
  unfold after in *. rewrite (take_split conf_module n k Hle) in Hk.
  apply exec_module_prefix_ok in Hk as (nsn & Hn & Hrest). rewrite Hn. simpl.
  unfold getattr, eval_name.
  rewrite (exec_module_lookup_other _ _ _ x Hrest); [reflexivity|].
  intros Hin. apply Hx, (targets_take _ (k - n)), Hin.
Qed.

(** The value a name has at a point of the run does not depend on the
    namespace the run started in, when a statement before that point
    assigns it. *)
Lemma value_after_independent (ns0 : namespace) (x : string) (n : nat) :
  x ∈ targets (take n conf_module) ->
  value_after n ns0 x = value_after n ∅ x.
Proof.
  intros Hx. unfold value_after, after.
  assert (agree [] ns0 ∅) as Hnil.
  { intros y Hy. apply elem_of_nil in Hy. destruct Hy. }
  pose proof (exec_module_agree (take n conf_module) [] ns0 ∅
                (closed_from_take _ _ n conf_closed) Hnil) as H.
  destruct (exec_module (take n conf_module) ns0) as [ns|e],
           (exec_module (take n conf_module) ∅) as [ns'|e']; simpl in *;
    try contradiction.
  - unfold getattr, eval_name. rewrite (H x); [reflexivity|].
    apply elem_of_app. left. exact Hx.
  - congruence.
Qed.
End ConfRun.

(** ** The pipeline on other texts *)

Section Checks.
Import Source Ast Eval.

Example conf_text_length : String.length conf_text = 1442.
Proof. vm_compute. reflexivity. Qed.

Example kinds_of_statements :
  Parser.kinds (unlines ["import os"; "from os import path"; "def f():";
                         "    return 1"; "class A: pass"; "if x:"; "    y = 1";
                         "x = 1"; "x"; "# x = 2"; EmptyString])
  = Ok [KImport; KImport; KFunctionDef; KOther; KClassDef; KControlFlow;
        KOther; KAssign; KExpr].
Proof. vm_compute. reflexivity. Qed.

Example later_assignment_wins :
  (ns ← run ∅ (unlines ["x = " +:+ Q "a"; "x = " +:+ Q "b"]); getattr ns "x")
  = Ok (VStr "b").
Proof. vm_compute. reflexivity. Qed.

Example unbound_name_fails :
  run ∅ ("y = f" +:+ Q "{z}") = Err (NameError "z").
Proof. vm_compute. reflexivity. Qed.

Example starting_namespace_is_read :
  (ns ← run {["z" := VInt 7]} ("y = f" +:+ Q "<{z}>"); getattr ns "y")
  = Ok (VStr "<7>").
Proof. vm_compute. reflexivity. Qed.

Example repeated_key_keeps_place :
  (ns ← run ∅ ("d = {" +:+ Q "a" +:+ ": 1, " +:+ Q "b" +:+ ": 2, "
                 +:+ Q "a" +:+ ": 3}"); getattr ns "d")
  = Ok (VDict [("a", VInt 3); ("b", VInt 2)]).
Proof. vm_compute. reflexivity. Qed.

Example open_bracket_fails :
  Parser.parse_module "x = [1, 2" = Err (SyntaxError 1 "bracket was never closed").
Proof. vm_compute. reflexivity. Qed.

Example comment_is_removed :
  Html.strip_comments "a<!-- b --> c <!-- d -->e" = "a c e".
Proof. vm_compute. reflexivity. Qed.
End Checks.

(** * The configuration values *)

Import Source Ast Eval Names Conf.

(** C1: [extensions] is the list of exactly five strings "myst_parser",
    "sphinx_design", "sphinx_copybutton", "sphinx.ext.intersphinx" and
    "sphinx_comments", in this order, whatever the namespace the file is
    run in. *)
Theorem extensions_value (ns0 : namespace) :
  extensions ns0
  = Ok (VList [VStr "myst_parser"; VStr "sphinx_design"; VStr "sphinx_copybutton";
               VStr "sphinx.ext.intersphinx"; VStr "sphinx_comments"]).
Proof.
  unfold extensions. rewrite config_independent by by_computation.
  vm_compute. reflexivity.
Qed.

(** C2: [myst_enable_extensions] is the list of exactly four strings
    "colon_fence", "deflist", "substitution" and "html_image", in this
    order, and nothing else. *)
Theorem myst_enable_extensions_value (ns0 : namespace) :
  myst_enable_extensions ns0
  = Ok (VList [VStr "colon_fence"; VStr "deflist"; VStr "substitution";
               VStr "html_image"]).
Proof.
  unfold myst_enable_extensions. rewrite config_independent by by_computation.
  vm_compute. reflexivity.
Qed.

(** C3: [html_sidebars] is a dictionary whose only key is the pattern "**",
    and its value is the list of the two strings "sidebar-logo.html" and
    "search-field.html", in this order. *)
Theorem html_sidebars_value (ns0 : namespace) :
  html_sidebars ns0
  = Ok (VDict [("**", VList [VStr "sidebar-logo.html"; VStr "search-field.html"])]).
Proof.
  unfold html_sidebars. rewrite config_independent by by_computation.
  vm_compute. reflexivity.
Qed.

(** C4: [html_theme_options] is a dictionary; each of its values is a
    string, a boolean or an integer; and it has the keys repository_url,
    repository_branch, use_repository_button, show_navbar_depth,
    use_edit_page_button, use_download_button and extra_navbar. *)
Theorem html_theme_options_scalars (ns0 : namespace) :
  exists d,
    html_theme_options ns0 = Ok (VDict d)
    /\ Forall (fun kv => is_scalar kv.2 = true) d
    /\ Forall (fun k => is_Some (dict_get k d))
         ["repository_url"; "repository_branch"; "use_repository_button";
          "show_navbar_depth"; "use_edit_page_button"; "use_download_button";
          "extra_navbar"].
Proof.
  unfold html_theme_options. rewrite config_independent by by_computation.
  eexists. split; [vm_compute; reflexivity|]. split.
  - repeat constructor.
  - repeat (constructor; [eexists; vm_compute; reflexivity|]). constructor.
Qed.

(** C5: [comments_config] is the empty dictionary. *)
Theorem comments_config_empty (ns0 : namespace) :
  comments_config ns0 = Ok (VDict []).
Proof.
  unfold comments_config. rewrite config_independent by by_computation.
  vm_compute. reflexivity.
Qed.

(** C6: each of [project], [author] and [copyright] is the target of exactly
    one statement of the file, which is an assignment; its value is a
    string; and at every point of the run after that statement, in
    whatever namespace the run started, the name has that same string as
    its value, which is the value the configuration ends with. *)
Theorem metadata_set_once (ns0 : namespace) (x : string) (i k : nat) :
  (x, i) ∈ [("project", 0); ("author", 1); ("copyright", 2)] ->
  i < k ->
  target <$> conf_module !! i = Some (Some x)
  /\ count_occ String.string_dec (targets conf_module) x = 1
  /\ exists s, config ns0 x = Ok (VStr s) /\ value_after k ns0 x = Ok (VStr s).
Proof.
  intros Hx Hk.
  assert ((x, i) = ("project", 0) \/ (x, i) = ("author", 1)
          \/ (x, i) = ("copyright", 2)) as Hcases.
  { rewrite !elem_of_cons, elem_of_nil in Hx. tauto. }
  destruct Hcases as [H|[H|H]]; injection H as -> ->;
    (split; [reflexivity|]); (split; [vm_compute; reflexivity|]);
    eexists;
    (split; [rewrite config_independent by by_computation; vm_compute; reflexivity|]).
  - rewrite (value_after_stable ns0 _ 1 k) by (lia || by_computation).
    rewrite value_after_independent by by_computation. vm_compute. reflexivity.
  - rewrite (value_after_stable ns0 _ 2 k) by (lia || by_computation).
    rewrite value_after_independent by by_computation. vm_compute. reflexivity.
  - rewrite (value_after_stable ns0 _ 3 k) by (lia || by_computation).
    rewrite value_after_independent by by_computation. vm_compute. reflexivity.
Qed.

Lemma metadata_set_once_witness :
  ("copyright", 2) ∈ [("project", 0); ("author", 1); ("copyright", 2)]
  /\ 2 < 5
  /\ target <$> conf_module !! 2 = Some (Some "copyright")
  /\ count_occ String.string_dec (targets conf_module) "copyright" = 1
  /\ exists s, config ∅ "copyright" = Ok (VStr s)
               /\ value_after 5 ∅ "copyright" = Ok (VStr s).
Proof.
  assert (("copyright", 2) ∈ [("project", 0); ("author", 1); ("copyright", 2)]) as Hin.
  { do 2 apply list_elem_of_further. apply list_elem_of_here. }
  assert (2 < 5) as Hlt by lia.
  exact (conj Hin (conj Hlt (metadata_set_once ∅ "copyright" 2 5 Hin Hlt))).
Defined.

(** C7: the file has exactly 65 lines; every statement in it is an
    assignment, so that each line is blank or part of an assignment; each
    name is assigned once, and the value assigned is a string, a dictionary
    or a list. *)
Theorem conf_is_assignments (ns0 : namespace) :
  splitlines conf_text = conf_py
  /\ length conf_py = 65
  /\ (exists toks, Lexer.lex conf_text = Ok toks
                   /\ Parser.logical_lines toks = conf_lines)
  /\ Forall (fun l => Parser.classify (Parser.ll_tokens l) = KAssign) conf_lines
  /\ Forall (fun n => blank_line n || within KAssign n = true) (seq 1 65)
  /\ Parser.parse_module conf_text = Ok conf_module
  /\ NoDup (targets conf_module)
  /\ Forall (fun s => exists x e v,
                 s = Assign x e /\ config ns0 x = Ok v
                 /\ is_str_dict_or_list v = true) conf_module.
Proof.
  split; [vm_compute; reflexivity|].
  split; [reflexivity|].
  split; [exact lex_conf|].
  split; [repeat constructor|].
  split; [by_computation|].
  split; [exact parse_conf|].
  split; [by_computation|].
  repeat (constructor;
          [eexists _, _, _; split; [reflexivity|];
           split; [rewrite config_independent by by_computation;
                   vm_compute; reflexivity
                  | reflexivity]|]).
  constructor.
Qed.

(** C8: [copyright] is computed from [author]: its statement assigns a
    formatted string that reads the name [author] and nothing else, and
    that evaluates, in any namespace that binds [author] to a string, to
    "2022 " followed by that string; so the configuration's [copyright] is
    "2022 " followed by its [author], which is "2022 Sebastian Ehlert". *)
Theorem copyright_from_author (ns0 : namespace) :
  (exists e,
      conf_module !! 2 = Some (Assign "copyright" e)
      /\ reads e = ["author"]
      /\ forall (ns : namespace) (a : string),
           ns !! "author" = Some (VStr a) -> eval ns e = Ok (VStr ("2022 " +:+ a)))
  /\ (exists a, author ns0 = Ok (VStr a)
                /\ copyright ns0 = Ok (VStr ("2022 " +:+ a)))
  /\ copyright ns0 = Ok (VStr "2022 Sebastian Ehlert").
Proof.
  unfold author, copyright. split; [|split].
  - eexists. split; [reflexivity|]. split; [reflexivity|].
    intros ns a Ha. simpl. unfold eval_field, eval_name. simpl. rewrite Ha. simpl.
    rewrite append_empty. reflexivity.
  - eexists. rewrite (config_independent ns0 "author") by by_computation.
    rewrite (config_independent ns0 "copyright") by by_computation.
    split; vm_compute; reflexivity.
  - rewrite config_independent by by_computation. vm_compute. reflexivity.
Qed.

Lemma copyright_from_author_witness :
  exists e,
    conf_module !! 2 = Some (Assign "copyright" e)
    /\ ({["author" := VStr "Ada Lovelace"]} : namespace) !! "author"
       = Some (VStr "Ada Lovelace")
    /\ eval {["author" := VStr "Ada Lovelace"]} e = Ok (VStr "2022 Ada Lovelace").
Proof.
  destruct (copyright_from_author ∅) as [(e & He & _ & Hev) _].
  exists e. split; [exact He|].
  assert (({["author" := VStr "Ada Lovelace"]} : namespace) !! "author"
          = Some (VStr "Ada Lovelace")) as Ha by apply lookup_singleton_eq.
  split; [exact Ha | exact (Hev _ _ Ha)].
Defined.

(** C9: [html_title] and [project] have the same value, the string
    "Fortran OOP Seminar Series". *)
Theorem html_title_is_project (ns0 : namespace) :
  html_title ns0 = project ns0
  /\ project ns0 = Ok (VStr "Fortran OOP Seminar Series").
Proof.
  unfold html_title, project.
  rewrite (config_independent ns0 "html_title") by by_computation.
  rewrite (config_independent ns0 "project") by by_computation.
  split; vm_compute; reflexivity.
Qed.

(** C10: the string under "extra_navbar" in [html_theme_options] (it is
    the value of [_extra_navbar]) has one comment opening and, after it, one
    comment closing; it has link markup, and every piece of it stands
    between the two; with the comment taken out, what is left is a [div]
    element with nothing but blanks and line breaks inside, and no link
    markup. *)
Theorem extra_navbar_links_commented_out (ns0 : namespace) :
  exists d s,
    html_theme_options ns0 = Ok (VDict d)
    /\ dict_get "extra_navbar" d = Some (VStr s)
    /\ _extra_navbar ns0 = Ok (VStr s)
    /\ exists i j inner,
         Html.positions Html.comment_open s = [i]
         /\ Html.positions Html.comment_close s = [j]
         /\ i < j
         /\ Html.link_spans s <> []
         /\ Forall (fun span => i + String.length Html.comment_open <= span.1
                                /\ span.2 <= j) (Html.link_spans s)
         /\ Html.strip_comments s
            = String nl ("<div class=" +:+ Q "sd-fs-4" +:+ ">") +:+ inner
              +:+ "</div>" +:+ String nl EmptyString
         /\ Html.all_space inner = true
         /\ Html.link_spans (Html.strip_comments s) = [].
Proof.
  unfold html_theme_options, _extra_navbar.
  rewrite (config_independent ns0 "html_theme_options") by by_computation.
  rewrite (config_independent ns0 "_extra_navbar") by by_computation.
  eexists _, _. split; [vm_compute; reflexivity|].
  split; [vm_compute; reflexivity|].
  split; [vm_compute; reflexivity|].
  exists 23, 332, (String nl (String nl EmptyString)).
  split; [vm_compute; reflexivity|].
  split; [vm_compute; reflexivity|].
  split; [lia|].
  split; [vm_compute; discriminate|].
  split; [by_computation|].
  split; [vm_compute; reflexivity|].
  split; vm_compute; reflexivity.
Qed.

(** * Beyond the single values: how the statements depend on each other *)

Section Selection.
Import Ast Eval Names.

Lemma targets_app (m1 m2 : list stmt) :
  targets (m1 ++ m2) = targets m1 ++ targets m2.
Proof. apply omap_app. Qed.

Lemma targets_cons (s : stmt) (m : list stmt) :
  targets (s :: m) = match target s with Some x => x :: targets m | None => targets m end.
Proof. reflexivity. Qed.

(** The names a module binds are the names it started with and its targets. *)
Lemma exec_module_dom m :
  forall ns ns', exec_module m ns = Ok ns' ->
                 dom ns' = list_to_set (targets m) ∪ dom ns.
Proof.
  induction m as [|s m IH]; intros ns ns' H.
  - simpl in H. assert (ns = ns') as -> by congruence.
    symmetry. apply (left_id_L ∅ (∪)).
  - simpl in H. apply bind_ok in H as (ns1 & Hs & Hm). rewrite (IH _ _ Hm).
    destruct s as [x e|e]; unfold exec_stmt in Hs;
      apply bind_ok in Hs as (v & _ & Hs).
    + assert (ns1 = <[x := v]> ns) as -> by congruence.
      change (targets (Assign x e :: m)) with (x :: targets m).
      rewrite dom_insert_L, list_to_set_cons.
      rewrite (assoc_L (∪)), (comm_L (∪) _ {[x]}). reflexivity.
    + assert (ns1 = ns) as -> by congruence. reflexivity.
Qed.

(** In a closed module, what a statement reads is bound from the start or
    assigned before it. *)
Lemma closed_from_split pre :
  forall b s post,
    closed_from b (pre ++ s :: post) = true ->
    forall y, y ∈ reads (value_of s) -> y ∈ b \/ y ∈ targets pre.
Proof.
  induction pre as [|a pre IH]; intros b s post H y Hy; simpl in H;
    apply andb_prop in H as [Hr Hc].
  - left. apply one_of_elem.
    rewrite forallb_forall in Hr. apply Hr, list_elem_of_In, Hy.
  - rewrite targets_cons. destruct (IH _ _ _ Hc y Hy) as [Hb|Hp].
    + destruct (target a) as [x|]; [|left; exact Hb].
      apply elem_of_cons in Hb as [->|Hb];
        [right; apply elem_of_cons; left; reflexivity | left; exact Hb].
    + right. destruct (target a); [apply elem_of_cons; right|]; exact Hp.
Qed.

(** A statement of a module whose names are assigned once: at the point it
    is reached its value is computed, its target ends the run with that
    value, and the names assigned before it already have the values they
    end the run with. *)
Lemma exec_module_split pre s post ns0 ns :
  exec_module (pre ++ s :: post) ns0 = Ok ns ->
  NoDup (targets (pre ++ s :: post)) ->
  exists ns1 v,
    exec_module pre ns0 = Ok ns1
    /\ eval ns1 (value_of s) = Ok v
    /\ (forall x, target s = Some x -> ns !! x = Some v)
    /\ agree (targets pre) ns1 ns.
Proof.
  intros H Hnd. apply exec_module_prefix_ok in H as (ns1 & Hpre & Hrest).
  rewrite targets_app in Hnd. apply NoDup_app in Hnd as (_ & Hdisj & Hnd).
  assert (agree (targets pre) ns1 ns) as Hag.
  { intros y Hy. symmetry.
    apply (exec_module_lookup_other _ _ _ _ Hrest), Hdisj, Hy. }
  simpl in Hrest. apply bind_ok in Hrest as (ns2 & Hs & Hpost).
  rewrite targets_cons in Hnd.
  destruct s as [x e|e]; simpl in *; apply bind_ok in Hs as (v & Hv & Hs);
    injection Hs as <-; exists ns1, v; (split; [exact Hpre|]);
    (split; [exact Hv|]); (split; [|exact Hag]).
  - intros x' [= <-]. apply NoDup_cons in Hnd as [Hx _].
    rewrite (exec_module_lookup_other _ _ _ x Hpost Hx).
    apply lookup_insert_eq.
  - intros x' [=].
Qed.

Variable m : list stmt.
Variables ns0 ns : namespace.
Hypothesis Hrun : exec_module m ns0 = Ok ns.
Hypothesis Hnodup : NoDup (targets m).
Hypothesis Hclosed : closed_from [] m = true.

(** A statement of [m], evaluated wherever the names it reads have the
    values [m] ends with, gives the value its target ends with. *)
Lemma stmt_value s ns' :
  s ∈ m -> agree (reads (value_of s)) ns' ns ->
  exists v, eval ns' (value_of s) = Ok v
            /\ forall x, target s = Some x -> ns !! x = Some v.
Proof.
  intros Hs Hag. apply list_elem_of_split in Hs as (pre & post & ->).
  destruct (exec_module_split _ _ _ _ _ Hrun Hnodup) as (ns1 & v & _ & Hv & Hx & Hpre).
  exists v. split; [|exact Hx]. rewrite <- Hv. apply eval_agree.
  intros y Hy. rewrite (Hag y Hy).
  destruct (closed_from_split _ _ _ _ Hclosed y Hy) as [Hb|Hp].
  - apply elem_of_nil in Hb. destruct Hb.
  - symmetry. apply Hpre, Hp.
Qed.

(** Statements of [m], taken in any order, any number of times, run
    without error as long as none reads a name too early, and give each
    target the value [m] ends with. *)
Lemma selection_from q :
  forall b nsp,
    (forall s, s ∈ q -> s ∈ m) ->
    closed_from b q = true -> agree b nsp ns ->
    exists ns', exec_module q nsp = Ok ns' /\ agree (targets q ++ b) ns' ns.
Proof.
  induction q as [|s q IH]; intros b nsp Hin Hc Hag.
  - exists nsp. split; [reflexivity | exact Hag].
  - simpl in Hc. apply andb_prop in Hc as [Hr Hc].
    destruct (stmt_value s nsp) as (v & Hv & Hx).
    { apply Hin, elem_of_cons. left. reflexivity. }
    { apply (reads_bound b); assumption. }
    assert (forall s', s' ∈ q -> s' ∈ m) as Hin'.
    { intros s' Hs'. apply Hin, elem_of_cons. right. exact Hs'. }
    destruct s as [x e|e]; simpl in *; rewrite Hv; simpl.
    + destruct (IH (x :: b) (<[x := v]> nsp) Hin' Hc) as (ns' & Hq & Hag').
      { intros y Hy. destruct (decide (x = y)) as [<-|Hne].
        - rewrite lookup_insert_eq. symmetry. apply Hx. reflexivity.
        - rewrite lookup_insert_ne by exact Hne. apply Hag.
          apply elem_of_cons in Hy as [Hy|Hy]; [congruence | exact Hy]. }
      exists ns'. split; [exact Hq|].
      eapply agree_subset; [|exact Hag']. intros y. unfold targets. simpl.
      rewrite elem_of_cons, !elem_of_app, elem_of_cons. tauto.
    + destruct (IH b nsp Hin' Hc Hag) as (ns' & Hq & Hag').
      exists ns'. split; [exact Hq | exact Hag'].
Qed.
End Selection.

(** * The configuration as a whole *)

Section Whole.
Import Settings.

Lemma conf_nodup : NoDup (targets conf_module).
Proof. by_computation. Qed.

Lemma run_conf_module (ns0 : namespace) :
  run ns0 conf_text = exec_module conf_module ns0.
Proof. unfold run. rewrite parse_conf. reflexivity. Qed.


(** The names bound after the run. *)
Lemma run_conf_dom (ns0 ns : namespace) :
  run ns0 conf_text = Ok ns ->
  dom ns = list_to_set (targets conf_module) ∪ dom ns0.
Proof. rewrite run_conf_module. apply exec_module_dom. Qed.

Lemma first_reversed_in_conf (k : nat) (s : stmt) :
  s ∈ first_reversed k -> s ∈ conf_module.
Proof.
  unfold first_reversed. rewrite elem_of_app, elem_of_reverse. intros [H|H].
  - apply (subseteq_take k), H.
  - apply (subseteq_drop k), H.
Qed.
End Whole.

Import Settings.



(** X2: a name the file assigns ends with the value the file gives it, also
    when the namespace the run starts in had bound it to something else:
    the value is the one it gets in an empty namespace. *)
Theorem config_overrides_namespace (ns0 : namespace) (x : string) :
  x ∈ targets conf_module ->
  exists v, config ∅ x = Ok v /\ config ns0 x = Ok v.
Proof.
  intros Hx. rewrite (config_independent ns0 x Hx).
  destruct (run_conf_ok ∅) as [ns Hrun].
  unfold config. rewrite Hrun. cbn [mbind result_bind]. unfold getattr, eval_name.
  assert (x ∈ dom ns) as Hin.
  { rewrite (run_conf_dom ∅ ns Hrun). apply elem_of_union. left.
    apply elem_of_list_to_set, Hx. }
  apply elem_of_dom in Hin as [v Hv]. rewrite Hv. exists v. split; reflexivity.
Qed.

Lemma config_overrides_namespace_witness :
  "project" ∈ targets conf_module
  /\ exists v, config ∅ "project" = Ok v
               /\ config {["project" := VInt 0]} "project" = Ok v.
Proof.
  assert ("project" ∈ targets conf_module) as Hin by by_computation.
  exact (conj Hin (config_overrides_namespace {["project" := VInt 0]} "project" Hin)).
Defined.

(** X3: statements of [conf.py] taken in any order, with some left out or
    repeated, run without error in any namespace as long as no statement
    reads a name that is not assigned before it; and every name they
    assign ends with the value [conf.py] gives it. *)
Theorem statements_in_any_order (ns0 : namespace) (m' : list stmt) (x : string) :
  (forall s, s ∈ m' -> s ∈ conf_module) ->
  closed_from [] m' = true ->
  x ∈ targets m' ->
  (ns' ← exec_module m' ns0; getattr ns' x) = config ns0 x
  /\ exists v, config ns0 x = Ok v.
Proof.
  intros Hin Hc Hx.
  destruct (run_conf_ok ns0) as [ns Hrun].
  assert (exec_module conf_module ns0 = Ok ns) as Hexec
    by (rewrite <- run_conf_module; exact Hrun).
  destruct (selection_from conf_module ns0 ns Hexec conf_nodup conf_closed
              m' [] ns0 Hin Hc) as (ns' & Hq & Hag).
  { intros y Hy. apply elem_of_nil in Hy. destruct Hy. }
  assert (exists v, ns !! x = Some v) as [v Hv].
  { apply (elem_of_dom (D := gset string)). rewrite (run_conf_dom ns0 ns Hrun).
    apply elem_of_union. left. apply elem_of_list_to_set.
    unfold targets in *. apply list_elem_of_omap in Hx as (s & Hs & Ht).
    apply list_elem_of_omap. exists s. split; [apply Hin, Hs | exact Ht]. }
  unfold config. rewrite Hq, Hrun. cbn [mbind result_bind].
  unfold getattr, eval_name. rewrite (Hag x), Hv.
  - split; [reflexivity | exists v; reflexivity].
  - apply elem_of_app. left. exact Hx.
Qed.

Lemma statements_in_any_order_witness :
  (forall s, s ∈ first_reversed 2 -> s ∈ conf_module)
  /\ closed_from [] (first_reversed 2) = true
  /\ "copyright" ∈ targets (first_reversed 2)
  /\ (ns' ← exec_module (first_reversed 2) ∅; getattr ns' "copyright")
     = config ∅ "copyright"
  /\ exists v, config ∅ "copyright" = Ok v.
Proof.
  assert (closed_from [] (first_reversed 2) = true) as Hc
    by (vm_compute; reflexivity).
  assert ("copyright" ∈ targets (first_reversed 2)) as Hx by by_computation.
  exact (conj (first_reversed_in_conf 2)
           (conj Hc (conj Hx
              (statements_in_any_order ∅ (first_reversed 2) "copyright"
                 (first_reversed_in_conf 2) Hc Hx)))).
Defined.




(** X6: [html_theme_options] has exactly nine keys, in the order of the
    file, none of them twice; "single_page", which line 50 has in a
    comment, is not a key. *)
Theorem theme_options_keys (ns0 : namespace) :
  exists d,
    html_theme_options ns0 = Ok (VDict d)
    /\ d.*1 = ["repository_url"; "repository_branch"; "use_repository_button";
               "use_edit_page_button"; "use_download_button"; "path_to_docs";
               "show_navbar_depth"; "logo_only"; "extra_navbar"]
    /\ NoDup d.*1
    /\ dict_get "single_page" d = None
    /\ contains "single_page" (lines 50 50) = true
    /\ Lexer.lex (lines 50 50) = Ok [].
Proof.
  unfold html_theme_options. rewrite config_independent by by_computation.
  eexists. split; [vm_compute; reflexivity|].
  split; [reflexivity|]. split; [by_computation|].
  split; [reflexivity|]. split; vm_compute; reflexivity.
Qed.

(** X7: [html_static_path] names one directory, and [html_logo] and
    [html_favicon] are two different files inside it, both with the suffix
    ".svg". *)
Theorem assets_in_static_path (ns0 : namespace) :
  exists dir logo icon,
    html_static_path ns0 = Ok (VList [VStr dir])
    /\ html_logo ns0 = Ok (VStr logo)
    /\ html_favicon ns0 = Ok (VStr icon)
    /\ under dir logo = true /\ under dir icon = true
    /\ has_suffix ".svg" logo = true /\ has_suffix ".svg" icon = true
    /\ logo <> icon.
Proof.
  unfold html_static_path, html_logo, html_favicon.
  rewrite (config_independent ns0 "html_static_path") by by_computation.
  rewrite (config_independent ns0 "html_logo") by by_computation.
  rewrite (config_independent ns0 "html_favicon") by by_computation.
  eexists _, _, _. split; [vm_compute; reflexivity|].
  split; [vm_compute; reflexivity|]. split; [vm_compute; reflexivity|].
  repeat (split; [vm_compute; reflexivity|]). discriminate.
Qed.

(** X8: every path the file gives, in [html_logo], [html_favicon],
    [html_css_files], [html_static_path] and [templates_path], is relative:
    it does not start with a slash, is no URL and has no "..". *)
Theorem paths_are_relative (ns0 : namespace) :
  Forall (fun r => exists v ps,
              r = Ok v /\ strings_of v = Some ps /\ ps <> []
              /\ forallb is_relative ps = true)
    [html_logo ns0; html_favicon ns0; html_css_files ns0; html_static_path ns0;
     templates_path ns0].
Proof.
  unfold html_logo, html_favicon, html_css_files, html_static_path, templates_path.
  rewrite (config_independent ns0 "html_logo") by by_computation.
  rewrite (config_independent ns0 "html_favicon") by by_computation.
  rewrite (config_independent ns0 "html_css_files") by by_computation.
  rewrite (config_independent ns0 "html_static_path") by by_computation.
  rewrite (config_independent ns0 "templates_path") by by_computation.
  repeat (constructor;
          [eexists _, _; split; [vm_compute; reflexivity|];
           split; [vm_compute; reflexivity|]; split; [discriminate | reflexivity]|]).
  constructor.
Qed.

(** X9: every setting of the file whose value is a list is a list of
    strings with at least one item and no item twice; [html_css_files],
    [html_static_path] and [templates_path] are such lists. *)
Theorem list_settings_hold_distinct_strings (ns0 : namespace) :
  Forall (fun x => exists v, config ns0 x = Ok v
                             /\ list_of_distinct_strings v = true)
         (targets conf_module)
  /\ Forall (fun r => exists v, r = Ok v /\ is_list v = true)
       [html_css_files ns0; html_static_path ns0; templates_path ns0].
Proof.
  unfold html_css_files, html_static_path, templates_path. split.
  - repeat (constructor;
            [eexists; split;
             [rewrite config_independent by by_computation; vm_compute; reflexivity
             | vm_compute; reflexivity]|]).
    constructor.
  - rewrite (config_independent ns0 "html_css_files") by by_computation.
    rewrite (config_independent ns0 "html_static_path") by by_computation.
    rewrite (config_independent ns0 "templates_path") by by_computation.
    repeat (constructor; [eexists; split; [vm_compute; reflexivity | reflexivity]|]).
    constructor.
Qed.

(** X10: [html_theme] and every entry of [extensions] is a dotted module
    name, as an import needs it; the theme is not one of the extensions. *)
Theorem theme_and_extensions_are_module_names (ns0 : namespace) :
  exists theme v exts,
    html_theme ns0 = Ok (VStr theme)
    /\ is_module_name theme = true
    /\ extensions ns0 = Ok v
    /\ strings_of v = Some exts
    /\ forallb is_module_name exts = true
    /\ theme ∉ exts.
Proof.
  unfold html_theme, extensions.
  rewrite (config_independent ns0 "html_theme") by by_computation.
  rewrite (config_independent ns0 "extensions") by by_computation.
  eexists _, _, _. split; [vm_compute; reflexivity|]. split; [reflexivity|].
  split; [vm_compute; reflexivity|]. split; [reflexivity|].
  split; [reflexivity | by_computation].
Qed.

(** X11: [master_doc] is "index": a document name, with no directory and
    no file suffix. *)
Theorem master_doc_is_a_document_name (ns0 : namespace) :
  exists doc,
    master_doc ns0 = Ok (VStr doc)
    /\ doc = "index"
    /\ contains "/" doc = false
    /\ contains "." doc = false.
Proof.
  unfold master_doc. rewrite config_independent by by_computation.
  eexists. split; [vm_compute; reflexivity|].
  split; [reflexivity|]. split; reflexivity.
Qed.

(** X12: the two buttons that [html_theme_options] turns on, for the
    repository and for editing a page, have the options they build their
    links from: an https [repository_url], a [repository_branch], and a
    [path_to_docs] that is the directory [conf.py] is in. *)
Theorem edit_links_have_their_options (ns0 : namespace) :
  exists d url branch docs,
    html_theme_options ns0 = Ok (VDict d)
    /\ dict_get "use_repository_button" d = Some (VBool true)
    /\ dict_get "use_edit_page_button" d = Some (VBool true)
    /\ dict_get "repository_url" d = Some (VStr url)
    /\ Html.starts_with "https://" url = true
    /\ dict_get "repository_branch" d = Some (VStr branch)
    /\ branch <> EmptyString
    /\ dict_get "path_to_docs" d = Some (VStr docs)
    /\ split "/" conf_path = [docs; "conf.py"].
Proof.
  unfold html_theme_options. rewrite config_independent by by_computation.
  eexists _, _, _, _. split; [vm_compute; reflexivity|].
  split; [reflexivity|]. split; [reflexivity|]. split; [reflexivity|].
  split; [reflexivity|]. split; [reflexivity|]. split; [discriminate|].
  split; reflexivity.
Qed.
